(** * The DGL GCMC training notebook (mxnet_gcmc.ipynb)

    The notebook is straight-line glue: a shell cell that builds a Docker
    image and pushes it to ECR, and Python cells that construct a SageMaker
    MXNet estimator and launch it.  Every interesting step is a call into
    something outside the repository (the aws and docker command-line
    tools, boto, the SageMaker SDK), so the cells are embedded as programs
    over a signature of external calls.  A program is run against a handler
    that answers the calls; the run records the calls in order.  What the
    notebook itself decides -- which calls it makes, with which arguments,
    in which order, under which conditions -- is then a property of every
    run, whatever the handler answers. *)

From Stdlib Require Import ZArith String Ascii List Lia.
From stdpp Require Import gmap strings list.

Open Scope string_scope.
Open Scope Z_scope.

(** ** Strings as the shell and Python treat them *)

Module Sh.

(** The default field separators of the shell: space, tab, newline. *)
Definition is_ifs (c : ascii) : bool :=
  Ascii.eqb c " " || Ascii.eqb c "009" || Ascii.eqb c "010".

(** [s] with the character [c] added at its end. *)
Fixpoint snoc (s : string) (c : ascii) : string :=
  match s with
  | EmptyString => String c EmptyString
  | String d s' => String d (snoc s' c)
  end.

(** Field splitting of an unquoted expansion: [cur] is the field being
    read. Runs of separators delimit fields; empty fields are dropped.
    The shell goes on to expand each field that holds a pattern character
    against the file names of the working directory; that step is not
    modelled, so the fields are the words of the command only for
    expansions without a pattern character ([no_glob] below). *)
Fixpoint fields (cur s : string) : list string :=
  match s with
  | EmptyString => if String.eqb cur "" then [] else [cur]
  | String c s' =>
      if is_ifs c
      then (if String.eqb cur "" then fields "" s' else cur :: fields "" s')
      else fields (snoc cur c) s'
  end.

Definition words (s : string) : list string := fields "" s.

(** Command substitution removes the trailing newlines of the output. *)
Fixpoint strip_trailing_newlines (s : string) : string :=
  match s with
  | EmptyString => ""
  | String c s' =>
      let r := strip_trailing_newlines s' in
      if Ascii.eqb c "010" && String.eqb r "" then "" else String c r
  end.

(** No character of [s] is a field separator. *)
Fixpoint no_ifs (s : string) : bool :=
  match s with
  | EmptyString => true
  | String c s' => negb (is_ifs c) && no_ifs s'
  end.

(** The characters that make a field a pattern for pathname expansion. *)
Definition is_glob (c : ascii) : bool :=
  Ascii.eqb c "*" || Ascii.eqb c "?" || Ascii.eqb c "[".

(** No character of [s] is a pattern character: pathname expansion leaves
    the fields of [s] as they are. *)
Fixpoint no_glob (s : string) : bool :=
  match s with
  | EmptyString => true
  | String c s' => negb (is_glob c) && no_glob s'
  end.

End Sh.

Module Py.

(** The outcome of a Python computation: a value or a raised exception,
    named by its class. *)
Inductive outcome (R : Type) : Type :=
| Returned (r : R)
| Raised (exn : string).
Arguments Returned {R} r.
Arguments Raised {R} exn.

Definition outcome_map {A B} (f : A -> B) (o : outcome A) : outcome B :=
  match o with
  | Returned a => Returned (f a)
  | Raised e => Raised e
  end.

(** [str.format] with automatically numbered fields: each [{}] takes the
    next argument, [{{] and [}}] are the escaped braces. Too few arguments
    raise IndexError; a lone brace raises ValueError (named and indexed
    fields, which the notebook does not use, are not modelled and end
    there too). The arguments are given as [str] renders them. *)
Fixpoint format (t : string) (args : list string) : outcome string :=
  match t with
  | EmptyString => Returned ""
  | String c t1 =>
      if Ascii.eqb c "{" then
        match t1 with
        | EmptyString => Raised "ValueError"
        | String d t2 =>
            if Ascii.eqb d "}" then
              match args with
              | a :: args' => outcome_map (fun r => a +:+ r) (format t2 args')
              | [] => Raised "IndexError"
              end
            else if Ascii.eqb d "{" then outcome_map (String "{") (format t2 args)
            else Raised "ValueError"
        end
      else if Ascii.eqb c "}" then
        match t1 with
        | EmptyString => Raised "ValueError"
        | String d t2 =>
            if Ascii.eqb d "}" then outcome_map (String "}") (format t2 args)
            else Raised "ValueError"
        end
      else outcome_map (String c) (format t1 args)
  end.

(** [str(x)] for an optional string: [None] renders as the word None. *)
Definition str_of_optional (x : option string) : string :=
  match x with
  | Some s => s
  | None => "None"
  end.

End Py.

(** ** External calls and programs over them *)

(** A Python object created by the SDK is known to the notebook only by its
    identity. *)
Definition obj := nat.

(** The values the notebook passes as arguments: strings, integers, a
    dictionary of strings, a list of such dictionaries, an object. *)
Inductive pyval : Type :=
| VStr (s : string)
| VInt (n : Z)
| VDict (d : gmap string string)
| VList (l : list (gmap string string))
| VObj (o : obj).

(** The calls the cells make, indexed by the type of the answer.
    - [Exec argv]: a command written in a shell cell (or after [!]), answered
      with what it wrote to standard output and its exit status;
    - [ExecOutput argv]: the command line that a command substitution
      standing alone produced, run as a command;
    - the others are the SDK and boto calls of the Python cells. *)
Inductive event : Type -> Type :=
| Exec (argv : list string) : event (string * Z)
| ExecOutput (argv : list string) : event Z
| NewSession : event obj
| DefaultBucket (sess : obj) : event string
| GetExecutionRole : event string
| GetCallerIdentity (sess : obj) : event (gmap string string)
| RegionName (sess : obj) : event (option string)
| Print (s : string) : event unit
| NewMXNet (kwargs : gmap string pyval) : event obj
| Fit (estimator : obj) (args : list pyval) (kwargs : gmap string pyval) : event unit.

(** A straight-line program: it returns, raises, or makes a call and goes
    on with the answer. *)
Inductive prog (R : Type) : Type :=
| Ret (r : R)
| Raise (exn : string)
| Call {X : Type} (e : event X) (k : X -> prog R).
Arguments Ret {R} r.
Arguments Raise {R} exn.
Arguments Call {R X} e k.

Fixpoint bind {A B : Type} (p : prog A) (f : A -> prog B) : prog B :=
  match p with
  | Ret a => f a
  | Raise e => Raise e
  | Call e k => Call e (fun x => bind (k x) f)
  end.

Definition call {X : Type} (e : event X) : prog X := Call e Ret.

Definition lift {R : Type} (o : Py.outcome R) : prog R :=
  match o with
  | Py.Returned r => Ret r
  | Py.Raised e => Raise e
  end.

Notation "x <- p ;; q" := (bind p (fun x => q))
  (at level 100, p at next level, right associativity, only parsing).
Notation "p ;;; q" := (bind p (fun _ => q))
  (at level 100, q at level 200, right associativity, only parsing).

(** One call of a run with its answer. *)
Inductive entry : Type :=
| Entry {X : Type} (e : event X) (x : X).

(** The environment: it answers each call and moves to its next state. An
    environment always answers: the runs below are the runs in which every
    command terminates with a status and every call into boto or the SDK
    returns. A run in which such a call raises ends there with that
    exception; it is a prefix of one of these runs. *)
Definition handler (W : Type) : Type := forall X : Type, event X -> W -> X * W.

Record ran (W R : Type) : Type := Ran {
  trace : list entry;
  result : Py.outcome R;
  final : W
}.
Arguments Ran {W R} trace result final.
Arguments trace {W R} r.
Arguments result {W R} r.
Arguments final {W R} r.

Fixpoint run {W R : Type} (h : handler W) (p : prog R) (w : W) : ran W R :=
  match p with
  | Ret r => Ran [] (Py.Returned r) w
  | Raise e => Ran [] (Py.Raised e) w
  | Call e k =>
      let a := h _ e w in
      let r := run h (k (fst a)) (snd a) in
      Ran (Entry e (fst a) :: trace r) (result r) (final r)
  end.

(** Running [p] and then [f] on its result: the traces follow one another,
    and [f] does not run when [p] raised. *)
Definition then_run {W A B : Type} (h : handler W) (r : ran W A)
    (f : A -> prog B) : ran W B :=
  match result r with
  | Py.Returned a =>
      let r2 := run h (f a) (final r) in
      Ran (trace r ++ trace r2) (result r2) (final r2)
  | Py.Raised e => Ran (trace r) (Py.Raised e) (final r)
  end.

(** Counting the entries of a trace that satisfy a test. *)
Definition count (p : entry -> bool) (t : list entry) : nat :=
  length (List.filter p t).

(** ** The cells of the notebook, in order *)

(** Cell 1: the two conda installs. *)
Definition install_cell : prog unit :=
  _ <- call (Exec ["conda"; "install"; "-y"; "boto3"]) ;;
  _ <- call (Exec ["conda"; "install"; "-c"; "anaconda"; "-y"; "botocore"]) ;;
  Ret tt.

(** The names cell 2 binds. *)
Record session_vars : Type := SessionVars {
  sess : obj;
  bucket : string;
  custom_code_upload_location : string;
  model_artifacts_location : string;
  role : string
}.

(** Cell 2: the session, the bucket and the two locations, the role. *)
Definition setup_cell : prog session_vars :=
  sess <- call NewSession ;;
  bucket <- call (DefaultBucket sess) ;;
  let custom_code_upload_location := "customcode" in
  model_artifacts_location <- lift (Py.format "s3://{}/artifacts" [bucket]) ;;
  role <- call GetExecutionRole ;;
  Ret (SessionVars sess bucket custom_code_upload_location
                   model_artifacts_location role).

(** Cell 3: show the training script. *)
Definition cat_cell : prog unit :=
  _ <- call (Exec ["cat"; "train.py"]) ;;
  Ret tt.

(** A command substitution standing alone as a command: the inner command
    runs, its output is split into fields and run as a command line; with
    no field left, nothing more runs and the status is the inner one. The
    command line is handed to the environment as one call, which is what
    the shell does when its first word names a program, as the docker login
    line that get-login prints does; a first word that is a builtin of the
    shell (exit, exec, set) would act on the cell itself and is outside
    this embedding. *)
Definition exec_output_of (argv : list string) : prog Z :=
  a <- call (Exec argv) ;;
  match Sh.words (Sh.strip_trailing_newlines (fst a)) with
  | [] => Ret (snd a)
  | line => call (ExecOutput line)
  end.

(** The quoted word assigned to [fullname] in the shell cell. *)
Definition fullname (account region docker_name : string) : string :=
  account +:+ ".dkr.ecr." +:+ region +:+ ".amazonaws.com/" +:+ docker_name +:+ ":latest".

(** Cell 4, the shell cell: resolve account and region, build the image,
    log in, create the repository when describing it fails, tag and push.
    The shell does not stop at a failing command; the status of the cell is
    the status of its last command. Unquoted expansions are split into
    fields (pathname expansion of the fields is left out), quoted ones are
    one word; redirections to /dev/null only drop output. *)
Definition build_and_push : prog Z :=
  a <- call (Exec ["aws"; "sts"; "get-caller-identity"; "--query"; "Account";
                   "--output"; "text"]) ;;
  let account := Sh.strip_trailing_newlines (fst a) in
  _ <- call (Exec ("echo" :: Sh.words account)) ;;
  r <- call (Exec ["aws"; "configure"; "get"; "region"]) ;;
  let region := Sh.strip_trailing_newlines (fst r) in
  let docker_name := "sagemaker-dgl-gcmc" in
  _ <- exec_output_of (["aws"; "ecr"; "get-login"; "--no-include-email"; "--region"]
                       ++ Sh.words region ++ ["--registry-ids"; "763104351884"]) ;;
  _ <- call (Exec (["docker"; "build"; "-t"] ++ Sh.words docker_name
                   ++ ["-f"; "GCMC.Dockerfile"; "."])) ;;
  _ <- exec_output_of (["aws"; "ecr"; "get-login"; "--region"]
                       ++ Sh.words region ++ ["--no-include-email"]) ;;
  let fullname := fullname account region docker_name in
  d <- call (Exec ["aws"; "ecr"; "describe-repositories"; "--repository-names";
                   docker_name]) ;;
  _ <- (if negb (snd d =? 0)
        then call (Exec ["aws"; "ecr"; "create-repository"; "--repository-name";
                         docker_name])
        else Ret ("", 0)) ;;
  _ <- call (Exec (["docker"; "tag"] ++ Sh.words docker_name ++ Sh.words fullname)) ;;
  p <- call (Exec (["docker"; "push"] ++ Sh.words fullname)) ;;
  Ret (snd p).

(** The names cell 5 binds. *)
Record estimator_vars : Type := EstimatorVars {
  docker_name : string;
  CODE_PATH : string;
  CODE_ENTRY : string;
  account : string;
  region : option string;
  image : string;
  params : gmap string string;
  task_tags : list (gmap string string);
  estimator : obj
}.

(** The keyword arguments of the [MXNet(...)] call, as written. *)
Definition mxnet_kwargs (CODE_ENTRY CODE_PATH role image : string)
    (params : gmap string string) (task_tags : list (gmap string string))
    (sess : obj) : gmap string pyval :=
  <["entry_point" := VStr CODE_ENTRY]>
  (<["source_dir" := VStr CODE_PATH]>
  (<["role" := VStr role]>
  (<["train_instance_count" := VInt 1]>
  (<["train_instance_type" := VStr "ml.p3.2xlarge"]>
  (<["image_name" := VStr image]>
  (<["hyperparameters" := VDict params]>
  (<["tags" := VList task_tags]>
  (<["sagemaker_session" := VObj sess]> ∅)))))))).

(** Cell 5: the image name, the hyperparameters, the tags, the estimator. *)
Definition estimator_cell (s : session_vars) : prog estimator_vars :=
  let docker_name := "sagemaker-dgl-gcmc" in
  let CODE_PATH := "../dgl_gcmc" in
  let CODE_ENTRY := "train.py" in
  ident <- call (GetCallerIdentity (sess s)) ;;
  account <- match ident !! "Account" with
             | Some a => Ret a
             | None => Raise "KeyError"
             end ;;
  region <- call (RegionName (sess s)) ;;
  image <- lift (Py.format "{}.dkr.ecr.{}.amazonaws.com/{}:latest"
                   [account; Py.str_of_optional region; docker_name]) ;;
  _ <- call (Print image) ;;
  let params : gmap string string := ∅ in
  let params := <["data_name" := "ml-1m"]> params in
  let params := <["save_dir" := "/opt/ml/model/"]> params in
  let task_tags : list (gmap string string) :=
    [ <["Key" := "ML Task"]> (<["Value" := "DGL"]> ∅) ] in
  estimator <- call (NewMXNet (mxnet_kwargs CODE_ENTRY CODE_PATH (role s) image
                                 params task_tags (sess s))) ;;
  Ret (EstimatorVars docker_name CODE_PATH CODE_ENTRY account region image
                     params task_tags estimator).

(** Cell 6: the launch, with no argument at all. *)
Definition fit_cell (v : estimator_vars) : prog unit :=
  call (Fit (estimator v) [] ∅).

(** Cell 4 as the notebook runs it: the cell magic sh runs the script and
    raises CalledProcessError when the script ends with a status other than
    zero. (The commands after an exclamation mark in cells 1 and 3 raise
    nothing, whatever their status.) *)
Definition sh_cell : prog unit :=
  st <- build_and_push ;;
  if st =? 0 then Ret tt else Raise "CalledProcessError".

(** The notebook run from top to bottom: a cell that raises ends the run,
    so the cells after a shell cell that failed do not run. *)
Definition notebook : prog (session_vars * estimator_vars) :=
  _ <- install_cell ;;
  s <- setup_cell ;;
  _ <- cat_cell ;;
  _ <- sh_cell ;;
  v <- estimator_cell s ;;
  _ <- fit_cell v ;;
  Ret (s, v).

(** ** Reading a trace *)

(** [pre] is a prefix of [argv]. *)
Fixpoint starts_with (pre argv : list string) : bool :=
  match pre, argv with
  | [], _ => true
  | p :: pre', a :: argv' => String.eqb p a && starts_with pre' argv'
  | _ :: _, [] => false
  end.

(** The entry is a command of a cell whose words start with [pre]. *)
Definition is_exec (pre : list string) (x : entry) : bool :=
  match x with
  | Entry e _ =>
      match e with
      | Exec argv => starts_with pre argv
      | _ => false
      end
  end.

(** The words of the commands of a cell that start with [pre], in order. *)
Fixpoint commands (pre : list string) (t : list entry) : list (list string) :=
  match t with
  | [] => []
  | Entry e _ :: t' =>
      match e with
      | Exec argv => if starts_with pre argv then argv :: commands pre t'
                     else commands pre t'
      | _ => commands pre t'
      end
  end.

(** The estimator constructions of a trace: the keyword arguments and the
    object the constructor answered with. *)
Fixpoint constructions (t : list entry) : list (gmap string pyval * obj) :=
  match t with
  | [] => []
  | Entry e x :: t' =>
      match e in event X return X -> list (gmap string pyval * obj) with
      | NewMXNet kw => fun o => (kw, o) :: constructions t'
      | _ => fun _ => constructions t'
      end x
  end.

(** The calls made after the first estimator construction. *)
Fixpoint after_construction (t : list entry) : list entry :=
  match t with
  | [] => []
  | Entry e _ :: t' =>
      match e with
      | NewMXNet _ => t'
      | _ => after_construction t'
      end
  end.

(** What the sts calls of the Python cells answered. *)
Fixpoint identities (t : list entry) : list (gmap string string) :=
  match t with
  | [] => []
  | Entry e x :: t' =>
      match e in event X return X -> list (gmap string string) with
      | GetCallerIdentity _ => fun i => i :: identities t'
      | _ => fun _ => identities t'
      end x
  end.

(** What the reads of the session's region answered. *)
Fixpoint region_reads (t : list entry) : list (option string) :=
  match t with
  | [] => []
  | Entry e x :: t' =>
      match e in event X return X -> list (option string) with
      | RegionName _ => fun r => r :: region_reads t'
      | _ => fun _ => region_reads t'
      end x
  end.

(** The launches of a trace: receiver, positional and keyword arguments. *)
Fixpoint launches (t : list entry) : list (obj * list pyval * gmap string pyval) :=
  match t with
  | [] => []
  | Entry e _ :: t' =>
      match e with
      | Fit est args kw => (est, args, kw) :: launches t'
      | _ => launches t'
      end
  end.

(** The entry resolves the caller's account: the sts command of the shell
    cell or the sts call of the Python cell. *)
Definition resolves_account (x : entry) : bool :=
  match x with
  | Entry e _ =>
      match e with
      | Exec argv => starts_with ["aws"; "sts"; "get-caller-identity"] argv
      | GetCallerIdentity _ => true
      | _ => false
      end
  end.

(** The entry resolves the region: the configure command of the shell cell
    or the read of the session's region in the Python cell. *)
Definition resolves_region (x : entry) : bool :=
  match x with
  | Entry e _ =>
      match e with
      | Exec argv => starts_with ["aws"; "configure"; "get"; "region"] argv
      | RegionName _ => true
      | _ => false
      end
  end.

(** ** An environment to run the notebook in

    The tools the cells call are not part of the repository. This is a small
    model of them, used to run the cells on concrete inputs: an account with
    its command-line configuration and its boto session, an ECR registry as
    the set of its repository names, and a network that fails the next
    [push_failures] pushes. *)
Module Env.

Record world : Type := World {
  cli_account : string;
  cli_region : string;
  boto_identity : gmap string string;
  boto_region : option string;
  default_bucket : string;
  execution_role : string;
  repositories : gset string;
  push_failures : nat;
  pushed : list (list string);
  objects : nat
}.

Definition with_repositories (r : gset string) (w : world) : world :=
  World (cli_account w) (cli_region w) (boto_identity w) (boto_region w)
        (default_bucket w) (execution_role w) r (push_failures w) (pushed w)
        (objects w).

Definition with_push (k : nat) (p : list (list string)) (w : world) : world :=
  World (cli_account w) (cli_region w) (boto_identity w) (boto_region w)
        (default_bucket w) (execution_role w) (repositories w) k p (objects w).

Definition with_objects (n : nat) (w : world) : world :=
  World (cli_account w) (cli_region w) (boto_identity w) (boto_region w)
        (default_bucket w) (execution_role w) (repositories w)
        (push_failures w) (pushed w) n.

Definition newline : string := String "010" "".

(** The commands: sts and configure print the account and the region;
    get-login prints a docker login line; describe-repositories succeeds
    when the named repository exists; create-repository adds it and fails
    when it exists; docker push fails while the network does; everything
    else succeeds silently. *)
Definition exec (argv : list string) (w : world) : (string * Z) * world :=
  if starts_with ["aws"; "sts"; "get-caller-identity"] argv then
    ((cli_account w +:+ newline, 0), w)
  else if starts_with ["aws"; "configure"; "get"; "region"] argv then
    ((cli_region w +:+ newline, 0), w)
  else if starts_with ["aws"; "ecr"; "get-login"] argv then
    (("docker login -u AWS -p token https://registry", 0), w)
  else if starts_with ["aws"; "ecr"; "describe-repositories"; "--repository-names"] argv then
    match argv !! 4%nat with
    | Some n => (("", if bool_decide (n ∈ repositories w) then 0 else 255), w)
    | None => (("", 255), w)
    end
  else if starts_with ["aws"; "ecr"; "create-repository"; "--repository-name"] argv then
    match argv !! 4%nat with
    | Some n => (("", if bool_decide (n ∈ repositories w) then 255 else 0),
                 with_repositories ({[n]} ∪ repositories w) w)
    | None => (("", 255), w)
    end
  else if starts_with ["docker"; "push"] argv then
    (("", match push_failures w with S _ => 1 | O => 0 end),
     with_push (Nat.pred (push_failures w))
               (match push_failures w with
                | S _ => pushed w
                | O => pushed w ++ [drop 2 argv]
                end) w)
  else (("", 0), w).

Definition env : handler world :=
  fun X e =>
    match e in event X return world -> X * world with
    | Exec argv => exec argv
    | ExecOutput argv => fun w => (0, w)
    | NewSession => fun w => (objects w, with_objects (S (objects w)) w)
    | DefaultBucket _ => fun w => (default_bucket w, w)
    | GetExecutionRole => fun w => (execution_role w, w)
    | GetCallerIdentity _ => fun w => (boto_identity w, w)
    | RegionName _ => fun w => (boto_region w, w)
    | Print _ => fun w => (tt, w)
    | NewMXNet _ => fun w => (objects w, with_objects (S (objects w)) w)
    | Fit _ _ _ => fun w => (tt, w)
    end.

(** A notebook instance in us-east-1 with an empty registry. *)
Definition fresh : world :=
  World "123456789012" "us-east-1"
        (<["Account" := "123456789012"]>
         (<["Arn" := "arn:aws:sts::123456789012:assumed-role/nb/SageMaker"]>
         (<["UserId" := "AROAEXAMPLE:SageMaker"]> ∅)))
        (Some "us-east-1")
        "sagemaker-us-east-1-123456789012"
        "arn:aws:iam::123456789012:role/nb"
        ∅ 0 [] 0.

(** What cells 2 and 5 bind when the notebook runs on [fresh]. *)
Definition fresh_session : session_vars :=
  SessionVars 0%nat "sagemaker-us-east-1-123456789012" "customcode"
              "s3://sagemaker-us-east-1-123456789012/artifacts"
              "arn:aws:iam::123456789012:role/nb".

Definition fresh_estimator : estimator_vars :=
  EstimatorVars "sagemaker-dgl-gcmc" "../dgl_gcmc" "train.py" "123456789012"
                (Some "us-east-1")
                "123456789012.dkr.ecr.us-east-1.amazonaws.com/sagemaker-dgl-gcmc:latest"
                (<["save_dir" := "/opt/ml/model/"]> (<["data_name" := "ml-1m"]> ∅))
                [ <["Key" := "ML Task"]> (<["Value" := "DGL"]> ∅) ]
                1%nat.

(** The same instance when the network fails the next push only. *)
Definition flaky : world := with_push 1 [] fresh.

(** The same instance when the command line is configured for another
    region than the one the boto session uses. *)
Definition two_regions : world :=
  World (cli_account fresh) "us-west-2" (boto_identity fresh) (boto_region fresh)
        (default_bucket fresh) (execution_role fresh) (repositories fresh)
        (push_failures fresh) (pushed fresh) (objects fresh).

End Env.

(** What the commands of a cell starting with [pre] wrote to standard
    output, and their exit statuses, in order. *)
Fixpoint outputs (pre : list string) (t : list entry) : list string :=
  match t with
  | [] => []
  | Entry e x :: t' =>
      match e in event X return X -> list string with
      | Exec argv => fun a => if starts_with pre argv then fst a :: outputs pre t'
                              else outputs pre t'
      | _ => fun _ => outputs pre t'
      end x
  end.

Fixpoint statuses (pre : list string) (t : list entry) : list Z :=
  match t with
  | [] => []
  | Entry e x :: t' =>
      match e in event X return X -> list Z with
      | Exec argv => fun a => if starts_with pre argv then snd a :: statuses pre t'
                              else statuses pre t'
      | _ => fun _ => statuses pre t'
      end x
  end.

(** The host part of an ECR reference, as the claims name it. *)
Definition registry_host (region : string) : string :=
  "dkr.ecr." +:+ region +:+ ".amazonaws.com".

(** The name of the repository, as both cells spell it. *)
Definition repository : string := "sagemaker-dgl-gcmc".

Definition sts_command : list string := ["aws"; "sts"; "get-caller-identity"].
Definition region_command : list string := ["aws"; "configure"; "get"; "region"].
Definition describe_command : list string := ["aws"; "ecr"; "describe-repositories"].
Definition create_command : list string := ["aws"; "ecr"; "create-repository"].
Definition login_command : list string := ["aws"; "ecr"; "get-login"].
Definition build_command : list string := ["docker"; "build"].
Definition tag_command : list string := ["docker"; "tag"].
Definition push_command : list string := ["docker"; "push"].


Definition create_argv : list string :=
  ["aws"; "ecr"; "create-repository"; "--repository-name"; repository].


(** ** The claims that fail, read on a trace *)

(** A push that failed is followed by another push. *)
Definition failed_push_retried (t : list entry) : Prop :=
  forall st, head (statuses push_command t) = Some st -> st <> 0 ->
             (2 <= count (is_exec push_command) t)%nat.



(** Every estimator is constructed with a reference that was pushed. *)
Definition construction_takes_pushed_reference (t : list entry) : Prop :=
  forall kw o, In (kw, o) (constructions t) ->
    exists ref, In ["docker"; "push"; ref] (commands push_command t)
                /\ kw !! "image_name" = Some (VStr ref).

(** A trace in which no identity is resolved and no estimator is
    constructed or launched. *)
Definition quiet (t : list entry) : Prop :=
  count resolves_account t = 0%nat /\ count resolves_region t = 0%nat /\
  identities t = [] /\ region_reads t = [] /\
  constructions t = [] /\ launches t = [].

(** ** The validating constructor of the job configuration *)

Module JobConfig.

(** Modelled from the spec: the constructor of the job configuration,
    build_job_spec. The notebook only calls the estimator class of the
    SageMaker SDK with literal arguments; the class itself, and with it any
    validation of its arguments, is not among the sources. The checks are
    made in the order in which the spec lists them. The set of supported
    compute types is not given by the spec and is a parameter. *)
Inductive error : Type :=
| InvalidConfigError
| UnsupportedComputeTypeError.

(** A hyperparameter value is flat (it has a rendering as a string) or a
    nested structure. *)
Inductive hyperparameter : Type :=
| Flat (s : string)
| Nested (d : list (string * string)).

Definition flattenable (v : hyperparameter) : bool :=
  match v with
  | Flat _ => true
  | Nested _ => false
  end.

Record ImageReference : Type := {
  registry_host : string;
  repository_name : string;
  tag : string
}.

Record JobSpec : Type := {
  entry_point : string;
  source_bundle : string;
  image : ImageReference;
  compute_type : string;
  instance_count : Z;
  hyperparameters : list (string * hyperparameter);
  tags : list (string * string);
  output_location : string
}.

Definition build_job_spec (recognized : string -> bool)
    (entry_point source_bundle : string) (image : ImageReference)
    (compute_type : string) (instance_count : Z)
    (hyperparameters : list (string * hyperparameter))
    (tags : list (string * string)) (output_location : string)
    : error + JobSpec :=
  if instance_count <? 1 then inl InvalidConfigError
  else if negb (forallb (fun kv => flattenable (snd kv)) hyperparameters)
  then inl InvalidConfigError
  else if negb (recognized compute_type) then inl UnsupportedComputeTypeError
  else inr {| entry_point := entry_point;
              source_bundle := source_bundle;
              image := image;
              compute_type := compute_type;
              instance_count := instance_count;
              hyperparameters := hyperparameters;
              tags := tags;
              output_location := output_location |}.

End JobConfig.

(** Unfolds the run of a cell and splits on what the environment can make
    the cell do: the output of each login lookup (empty or a command line),
    the status of describe-repositories, the presence of the account in the
    answer of sts. *)
Ltac run_notebook :=
  unfold notebook, install_cell, setup_cell, cat_cell, sh_cell, build_and_push,
    estimator_cell, fit_cell, exec_output_of, call;
  cbn;
  repeat match goal with
  | |- context [match Sh.words ?s with _ => _ end] => destruct (Sh.words s); cbn
  | |- context [if negb (?x =? 0) then _ else _] => destruct (x =? 0) eqn:?; cbn
  | |- context [if ?x =? 0 then Ret tt else _] => destruct (x =? 0) eqn:?; cbn
  | |- context [match ?m !! "Account" with _ => _ end] =>
      destruct (m !! "Account") eqn:?; cbn
  end.

Ltac run_cells :=
  unfold notebook, install_cell, setup_cell, cat_cell, build_and_push,
    estimator_cell, fit_cell, exec_output_of, call;
  cbn;
  repeat match goal with
  | |- context [match Sh.words ?s with _ => _ end] => destruct (Sh.words s); cbn
  | |- context [if negb (?x =? 0) then _ else _] => destruct (x =? 0) eqn:?; cbn
  | |- context [match ?m !! "Account" with _ => _ end] =>
      destruct (m !! "Account") eqn:?; cbn
  end.

(** ** Further readings of a trace *)

(** The command lines that were run because a command substitution printed
    them. *)
Fixpoint executed (t : list entry) : list (list string) :=
  match t with
  | [] => []
  | Entry e _ :: t' =>
      match e with
      | ExecOutput argv => argv :: executed t'
      | _ => executed t'
      end
  end.

Definition nonempty {A : Type} (l : list A) : bool :=
  match l with
  | [] => false
  | _ :: _ => true
  end.



(** A call without its answer, and the calls of a trace. *)
Inductive called : Type :=
| Called {X : Type} (e : event X).

Definition calls (t : list entry) : list called :=
  map (fun x => match x with Entry e _ => Called e end) t.

(** The environment [h] when the default bucket of the session is [b]:
    only the answer to that one call changes. *)
Definition with_bucket {W : Type} (b : string) (h : handler W) : handler W :=
  fun X e =>
    match e in event X return (W -> X * W) -> W -> X * W with
    | DefaultBucket _ => fun k w => (b, snd (k w))
    | _ => fun k => k
    end (h X e).

(** The model instance when the sts answer of the boto session carries no
    account, and when no region is configured for the command line. *)
Definition no_account : Env.world :=
  Env.World (Env.cli_account Env.fresh) (Env.cli_region Env.fresh) ∅
            (Env.boto_region Env.fresh) (Env.default_bucket Env.fresh)
            (Env.execution_role Env.fresh) (Env.repositories Env.fresh)
            (Env.push_failures Env.fresh) (Env.pushed Env.fresh)
            (Env.objects Env.fresh).

Definition no_cli_region : Env.world :=
  Env.World (Env.cli_account Env.fresh) "" (Env.boto_identity Env.fresh)
            (Env.boto_region Env.fresh) (Env.default_bucket Env.fresh)
            (Env.execution_role Env.fresh) (Env.repositories Env.fresh)
            (Env.push_failures Env.fresh) (Env.pushed Env.fresh)
            (Env.objects Env.fresh).


(** What a login lookup printed is nothing or a docker command line without
    a pattern character: the shell runs it as the one program docker. *)
Definition docker_line_or_nothing (o : string) : bool :=
  Sh.no_glob o
  && match Sh.words (Sh.strip_trailing_newlines o) with
     | [] => true
     | c :: _ => String.eqb c "docker"
     end.

(** * Properties *)

(** ** Strings *)

Example words_login :
  Sh.words "docker login  -u AWS
 -p tok" = ["docker"; "login"; "-u"; "AWS"; "-p"; "tok"].
Proof. reflexivity. Qed.

Example strip_account :
  Sh.strip_trailing_newlines "123456789012
" = "123456789012".
Proof. reflexivity. Qed.

Example format_bucket :
  Py.format "s3://{}/artifacts" ["b"] = Py.Returned "s3://b/artifacts".
Proof. reflexivity. Qed.

Example format_short :
  Py.format "{}.dkr.ecr.{}" ["a"] = Py.Raised "IndexError".
Proof. reflexivity. Qed.

Lemma append_cons (c : ascii) (s1 s2 : string) :
  String c s1 +:+ s2 = String c (s1 +:+ s2).
Proof. reflexivity. Qed.

Lemma append_nil_r (s : string) : s +:+ "" = s.
Proof.
  induction s as [| c s IH]; [reflexivity |].
  now rewrite append_cons, IH.
Qed.

Lemma append_assoc (s1 s2 s3 : string) : (s1 +:+ s2) +:+ s3 = s1 +:+ s2 +:+ s3.
Proof.
  induction s1 as [| c s1 IH]; [reflexivity |].
  now rewrite !append_cons, IH.
Qed.

Lemma snoc_append (s : string) (c : ascii) : Sh.snoc s c = s +:+ String c "".
Proof.
  induction s as [| d s IH]; [reflexivity |].
  simpl. now rewrite IH, append_cons.
Qed.

Lemma fields_no_ifs (s cur : string) :
  Sh.no_ifs s = true -> cur +:+ s <> "" -> Sh.fields cur s = [cur +:+ s].
Proof.
  revert cur. induction s as [| c s IH]; intros cur Hs Hne.
  - rewrite append_nil_r in *. simpl.
    destruct (String.eqb_spec cur ""); [contradiction | reflexivity].
  - simpl in Hs. apply andb_prop in Hs as [Hc Hs].
    apply negb_true_iff in Hc. simpl. rewrite Hc.
    assert (E : Sh.snoc cur c +:+ s = cur +:+ String c s)
      by now rewrite snoc_append, append_assoc.
    rewrite IH; rewrite ?E; auto.
Qed.

(** A non-empty word without separators is one field. *)
Lemma words_no_ifs (s : string) :
  Sh.no_ifs s = true -> s <> "" -> Sh.words s = [s].
Proof. intros Hs Hne. unfold Sh.words. now rewrite fields_no_ifs. Qed.



(** ** Programs *)

Lemma run_bind {W A B : Type} (h : handler W) (p : prog A) (f : A -> prog B) (w : W) :
  run h (bind p f) w = then_run h (run h p w) f.
Proof.
  revert w. induction p as [a | e | X e k IH]; intros w; simpl.
  - unfold then_run. simpl. destruct (run h (f a) w). reflexivity.
  - reflexivity.
  - rewrite IH. unfold then_run. simpl.
    destruct (result (run h (k (h X e w).1) (h X e w).2)); reflexivity.
Qed.

Lemma count_app p t1 t2 : count p (t1 ++ t2) = (count p t1 + count p t2)%nat.
Proof. unfold count. rewrite List.filter_app, length_app. reflexivity. Qed.

(** ** The shell cell, against any environment *)

(** The cell tags and pushes the word it assigned to [fullname], split into
    fields, built from the account and the region its own two lookups
    printed. *)
Lemma shell_cell_pushes_fullname {W : Type} (h : handler W) (w : W) :
  let t := trace (run h build_and_push w) in
  exists a r,
    outputs sts_command t = [a] /\ outputs region_command t = [r] /\
    commands tag_command t
      = [(["docker"; "tag"; repository]
          ++ Sh.words (fullname (Sh.strip_trailing_newlines a)
                                (Sh.strip_trailing_newlines r) repository))%list] /\
    commands push_command t
      = [(["docker"; "push"]
          ++ Sh.words (fullname (Sh.strip_trailing_newlines a)
                                (Sh.strip_trailing_newlines r) repository))%list].
Proof.
  intros t. subst t.
  run_cells; do 2 eexists; repeat split; reflexivity.
Qed.

(** The repository is created exactly when describing it failed; the cell
    goes on to tag and push either way. *)
Lemma create_exactly_when_describe_fails {W : Type} (h : handler W) (w : W) :
  let t := trace (run h build_and_push w) in
  exists st,
    statuses describe_command t = [st] /\
    commands create_command t = (if st =? 0 then [] else [create_argv]) /\
    count (is_exec tag_command) t = 1%nat /\
    count (is_exec push_command) t = 1%nat.
Proof.
  intros t. subst t.
  run_cells.
  all: eexists; repeat split; try reflexivity.
  all: match goal with H : (_ =? 0) = _ |- _ => rewrite H end; reflexivity.
Qed.

(** In the model environment: the first run creates the repository exactly
    when it is absent, and a second run finds it and creates nothing. *)
Lemma env_two_runs (w : Env.world) :
  let r1 := run Env.env build_and_push w in
  let r2 := run Env.env build_and_push (final r1) in
  commands create_command (trace r1)
    = (if bool_decide (repository ∈ Env.repositories w) then [] else [create_argv]) /\
  repository ∈ Env.repositories (final r1) /\
  statuses describe_command (trace r2) = [0] /\
  commands create_command (trace r2) = [] /\
  Env.repositories (final r2) = Env.repositories (final r1) /\
  length (commands push_command (trace r2)) = 1%nat.
Proof.
  intros r1 r2. subst r1 r2.
  destruct w as [ca cr bi br db er repos pf pd ob].
  unfold build_and_push, exec_output_of, call, repository, create_argv.
  assert (E' : bool_decide ("sagemaker-dgl-gcmc"
                            ∈ ({["sagemaker-dgl-gcmc"]} ∪ repos : gset string)) = true)
    by (apply bool_decide_eq_true, elem_of_union; left; now apply elem_of_singleton).
  destruct (bool_decide ("sagemaker-dgl-gcmc" ∈ repos)) eqn:E;
    repeat (first [rewrite E | rewrite E' | progress cbn]).
  all: apply bool_decide_eq_true in E'; try apply bool_decide_eq_true in E;
    repeat split; auto.
Qed.

(** C3: a run of the build-and-publish cell issues create-repository exactly
    when describe-repositories failed and tags and pushes either way; in the
    model registry the repository is created when absent and skipped when
    present, so a second run finds the repository (status 0 at the existence
    check), creates nothing, leaves the registry as it was and pushes. *)
Theorem create_repository_if_absent_is_idempotent :
  (forall (W : Type) (h : handler W) (w : W),
     let t := trace (run h build_and_push w) in
     exists st,
       statuses describe_command t = [st] /\
       commands create_command t = (if st =? 0 then [] else [create_argv]) /\
       count (is_exec tag_command) t = 1%nat /\
       count (is_exec push_command) t = 1%nat)
  /\
  (forall w : Env.world,
     let r1 := run Env.env build_and_push w in
     let r2 := run Env.env build_and_push (final r1) in
     commands create_command (trace r1)
       = (if bool_decide (repository ∈ Env.repositories w) then [] else [create_argv]) /\
     repository ∈ Env.repositories (final r1) /\
     statuses describe_command (trace r2) = [0] /\
     commands create_command (trace r2) = [] /\
     Env.repositories (final r2) = Env.repositories (final r1) /\
     length (commands push_command (trace r2)) = 1%nat).
Proof.
  split.
  - intros W h w. apply create_exactly_when_describe_fails.
  - intros w. apply env_two_runs.
Qed.

Lemma no_ifs_append (s1 s2 : string) :
  Sh.no_ifs (s1 +:+ s2) = Sh.no_ifs s1 && Sh.no_ifs s2.
Proof.
  induction s1 as [| c s1 IH]; [reflexivity |].
  rewrite append_cons. simpl. rewrite IH. now rewrite andb_assoc.
Qed.

Lemma append_nonempty_r (s1 s2 : string) : s2 <> "" -> s1 +:+ s2 <> "".
Proof.
  intros H. destruct s1 as [| c s1]; [exact H |].
  rewrite append_cons. discriminate.
Qed.

(** The word assigned to fullname is one field when account and region
    hold no separator. *)
Lemma fullname_one_word (a r : string) :
  Sh.no_ifs a = true -> Sh.no_ifs r = true ->
  Sh.words (fullname a r "sagemaker-dgl-gcmc") = [fullname a r "sagemaker-dgl-gcmc"].
Proof.
  intros Ha Hr. apply words_no_ifs.
  - unfold fullname. rewrite !no_ifs_append, Ha, Hr. reflexivity.
  - unfold fullname. apply append_nonempty_r. discriminate.
Qed.




(** Every command of the shell cell is issued once, whatever the statuses. *)
Lemma shell_cell_counts {W : Type} (h : handler W) (w : W) :
  let r := run h build_and_push w in
  let t := trace r in
  count (is_exec sts_command) t = 1%nat /\
  count (is_exec region_command) t = 1%nat /\
  count (is_exec login_command) t = 2%nat /\
  count (is_exec build_command) t = 1%nat /\
  count (is_exec describe_command) t = 1%nat /\
  (count (is_exec create_command) t <= 1)%nat /\
  count (is_exec tag_command) t = 1%nat /\
  count (is_exec push_command) t = 1%nat /\
  exists st, statuses push_command t = [st] /\ result r = Py.Returned st.
Proof.
  intros r t. subst r t.
  run_cells.
  all: repeat split; try reflexivity; try (cbv; lia).
  all: eexists; split; reflexivity.
Qed.

(** C6, as amended: in the build-and-publish cell nothing is retried and
    nothing is fatal. Whatever the commands answer, the account and region
    lookups, docker build, describe-repositories, docker tag and docker push
    are each issued exactly once, the login lookup twice, create-repository
    at most once, and the status of the cell is the status of its one push. *)
Theorem shell_cell_issues_each_command_once :
  forall (W : Type) (h : handler W) (w : W),
    let r := run h build_and_push w in
    let t := trace r in
    count (is_exec sts_command) t = 1%nat /\
    count (is_exec region_command) t = 1%nat /\
    count (is_exec login_command) t = 2%nat /\
    count (is_exec build_command) t = 1%nat /\
    count (is_exec describe_command) t = 1%nat /\
    (count (is_exec create_command) t <= 1)%nat /\
    count (is_exec tag_command) t = 1%nat /\
    count (is_exec push_command) t = 1%nat /\
    exists st, statuses push_command t = [st] /\ result r = Py.Returned st.
Proof.
  intros W h w. apply shell_cell_counts.
Qed.

(** C6, as stated, fails: when the network fails one push and would carry
    the next, the cell pushes once, ends with the status of the failure and
    has pushed nothing. *)
Lemma transient_push_failure_is_not_retried :
  let r := run Env.env build_and_push Env.flaky in
  ~ failed_push_retried (trace r)
  /\ result r = Py.Returned 1
  /\ Env.pushed (final r) = []
  /\ Env.push_failures (final r) = 0%nat.
Proof.
  cbv zeta. split; [| repeat split; vm_compute; reflexivity].
  intros H. specialize (H 1).
  assert (C : (2 <= count (is_exec push_command)
                       (trace (run Env.env build_and_push Env.flaky)))%nat).
  { apply H; [vm_compute; reflexivity | discriminate]. }
  vm_compute in C. lia.
Qed.

(** ** The cells one by one, against any environment *)

Lemma run_bind_returned {W A B : Type} (h : handler W) (p : prog A)
    (f : A -> prog B) (w : W) (a : A) :
  result (run h p w) = Py.Returned a ->
  run h (bind p f) w
  = Ran (trace (run h p w) ++ trace (run h (f a) (final (run h p w))))
        (result (run h (f a) (final (run h p w))))
        (final (run h (f a) (final (run h p w)))).
Proof. intros H. rewrite run_bind. unfold then_run. now rewrite H. Qed.

Lemma run_bind_raised {W A B : Type} (h : handler W) (p : prog A)
    (f : A -> prog B) (w : W) (e : string) :
  result (run h p w) = Py.Raised e ->
  run h (bind p f) w = Ran (trace (run h p w)) (Py.Raised e) (final (run h p w)).
Proof. intros H. rewrite run_bind. unfold then_run. now rewrite H. Qed.

(** Reading a trace of two parts is reading the parts. *)
Lemma constructions_app (t1 t2 : list entry) :
  constructions (t1 ++ t2) = (constructions t1 ++ constructions t2)%list.
Proof.
  induction t1 as [| [X e x] t1 IH]; [reflexivity |].
  destruct e; simpl; rewrite ?IH; reflexivity.
Qed.

Lemma launches_app (t1 t2 : list entry) :
  launches (t1 ++ t2) = (launches t1 ++ launches t2)%list.
Proof.
  induction t1 as [| [X e x] t1 IH]; [reflexivity |].
  destruct e; simpl; rewrite ?IH; reflexivity.
Qed.

Lemma identities_app (t1 t2 : list entry) :
  identities (t1 ++ t2) = (identities t1 ++ identities t2)%list.
Proof.
  induction t1 as [| [X e x] t1 IH]; [reflexivity |].
  destruct e; simpl; rewrite ?IH; reflexivity.
Qed.

Lemma region_reads_app (t1 t2 : list entry) :
  region_reads (t1 ++ t2) = (region_reads t1 ++ region_reads t2)%list.
Proof.
  induction t1 as [| [X e x] t1 IH]; [reflexivity |].
  destruct e; simpl; rewrite ?IH; reflexivity.
Qed.



(** Before the first construction of a trace nothing counts as after it. *)
Lemma after_construction_app (t1 t2 : list entry) :
  constructions t1 = [] ->
  after_construction (t1 ++ t2) = after_construction t2.
Proof.
  induction t1 as [| [X e x] t1 IH]; [reflexivity |].
  destruct e; simpl; try discriminate; auto.
Qed.

Lemma after_construction_app_found (t1 t2 : list entry) :
  constructions t1 <> [] ->
  after_construction (t1 ++ t2) = (after_construction t1 ++ t2)%list.
Proof.
  induction t1 as [| [X e x] t1 IH]; [intros H; exfalso; now apply H |].
  destruct e; simpl; auto.
Qed.

Lemma install_cell_run {W : Type} (h : handler W) (w : W) :
  result (run h install_cell w) = Py.Returned tt /\ quiet (trace (run h install_cell w)).
Proof. repeat split. Qed.

Lemma cat_cell_run {W : Type} (h : handler W) (w : W) :
  result (run h cat_cell w) = Py.Returned tt /\ quiet (trace (run h cat_cell w)).
Proof. repeat split. Qed.

(** Cell 2 returns; the artifacts location it binds is the bucket's. *)
Lemma setup_cell_run {W : Type} (h : handler W) (w : W) :
  exists s,
    result (run h setup_cell w) = Py.Returned s /\
    custom_code_upload_location s = "customcode" /\
    model_artifacts_location s = "s3://" +:+ bucket s +:+ "/artifacts" /\
    quiet (trace (run h setup_cell w)).
Proof. eexists. repeat split. Qed.

Lemma build_and_push_run {W : Type} (h : handler W) (w : W) :
  let t := trace (run h build_and_push w) in
  (exists st, result (run h build_and_push w) = Py.Returned st) /\
  count resolves_account t = 1%nat /\ count resolves_region t = 1%nat /\
  identities t = [] /\ region_reads t = [] /\
  constructions t = [] /\ launches t = [].
Proof.
  intros t. subst t.
  run_cells.
  all: split; [eexists; reflexivity | repeat split].
Qed.

(** Cell 5 either stops at the missing account or returns; when it returns,
    it has resolved account and region once, bound the image name to the
    formatted string and constructed one estimator from its variables. *)
Lemma estimator_cell_run {W : Type} (h : handler W) (w : W) (s : session_vars) :
  let r := run h (estimator_cell s) w in
  let t := trace r in
  count resolves_account t = 1%nat /\
  ((result r = Py.Raised "KeyError" /\ count resolves_region t = 0%nat /\
    constructions t = [] /\ launches t = [])
   \/
   (exists v,
      result r = Py.Returned v /\
      count resolves_region t = 1%nat /\
      (exists ident, identities t = [ident] /\ ident !! "Account" = Some (account v)) /\
      region_reads t = [region v] /\
      image v = fullname (account v) (Py.str_of_optional (region v)) repository /\
      docker_name v = repository /\
      CODE_ENTRY v = "train.py" /\
      CODE_PATH v = "../dgl_gcmc" /\
      params v = <["save_dir" := "/opt/ml/model/"]> (<["data_name" := "ml-1m"]> ∅) /\
      task_tags v = [ <["Key" := "ML Task"]> (<["Value" := "DGL"]> ∅) ] /\
      constructions t
        = [(mxnet_kwargs (CODE_ENTRY v) (CODE_PATH v) (role s) (image v) (params v)
                         (task_tags v) (sess s), estimator v)] /\
      launches t = [] /\
      after_construction t = [])).
Proof.
  intros r t. subst r t.
  run_cells.
  - split; [reflexivity |]. right. eexists. repeat split.
    eexists. split; [reflexivity | assumption].
  - split; [reflexivity |]. left. repeat split.
Qed.

(** Cell 6 is one call: the launch of the estimator, with no argument. *)
Lemma fit_cell_run {W : Type} (h : handler W) (w : W) (v : estimator_vars) :
  let t := trace (run h (fit_cell v) w) in
  result (run h (fit_cell v) w) = Py.Returned tt /\
  count resolves_account t = 0%nat /\ count resolves_region t = 0%nat /\
  identities t = [] /\ region_reads t = [] /\ constructions t = [] /\
  launches t = [(estimator v, [], ∅)] /\ length t = 1%nat.
Proof.
  cbn. destruct (h unit (Fit (estimator v) [] ∅) w) as [[] w']. repeat split.
Qed.

(** The cell magic adds no call: the shell cell as the notebook runs it
    makes the calls of the script and ends in the same state; it returns
    when the script ended with status zero and raises otherwise. *)
Lemma sh_cell_run {W : Type} (h : handler W) (w : W) :
  trace (run h sh_cell w) = trace (run h build_and_push w) /\
  final (run h sh_cell w) = final (run h build_and_push w) /\
  (result (run h build_and_push w) = Py.Returned 0 ->
   result (run h sh_cell w) = Py.Returned tt) /\
  (forall st, result (run h build_and_push w) = Py.Returned st -> st <> 0 ->
   result (run h sh_cell w) = Py.Raised "CalledProcessError").
Proof.
  destruct (build_and_push_run h w) as [[st Hst] _].
  unfold sh_cell.
  rewrite (run_bind_returned h build_and_push _ w st Hst).
  cbn [trace result final].
  destruct (Z.eqb_spec st 0) as [-> | Hne]; cbn [run trace result final];
    rewrite app_nil_r.
  - repeat split. intros st' Hst' Hne. rewrite Hst in Hst'.
    injection Hst' as <-. contradiction.
  - repeat split. intros H0. rewrite Hst in H0. injection H0 as ->. contradiction.
Qed.

(** The notebook is its cells one after the other: each cell starts in the
    state the cell before it ended in; cell 5 is given the names cell 2
    bound, cell 6 the names cell 5 bound, and nothing else is handed on.
    The run stops at the shell cell when the script fails. *)
Lemma notebook_stages {W : Type} (h : handler W) (w : W) (s : session_vars) :
  let r1 := run h install_cell w in
  let r2 := run h setup_cell (final r1) in
  let r3 := run h cat_cell (final r2) in
  let r4 := run h build_and_push (final r3) in
  let r5 := run h (estimator_cell s) (final r4) in
  result r2 = Py.Returned s ->
  (result r4 = Py.Returned 0 ->
   (forall v, result r5 = Py.Returned v ->
      let r6 := run h (fit_cell v) (final r5) in
      trace (run h notebook w)
        = (trace r1 ++ trace r2 ++ trace r3 ++ trace r4 ++ trace r5 ++ trace r6)%list
      /\ result (run h notebook w) = Py.Returned (s, v)
      /\ final (run h notebook w) = final r6)
   /\
   (forall e, result r5 = Py.Raised e ->
      trace (run h notebook w)
        = (trace r1 ++ trace r2 ++ trace r3 ++ trace r4 ++ trace r5)%list
      /\ result (run h notebook w) = Py.Raised e))
  /\
  (forall st, result r4 = Py.Returned st -> st <> 0 ->
     trace (run h notebook w) = (trace r1 ++ trace r2 ++ trace r3 ++ trace r4)%list
     /\ result (run h notebook w) = Py.Raised "CalledProcessError").
Proof.
  intros r1 r2 r3 r4 r5 Hs.
  destruct (install_cell_run h w) as [H1 _].
  destruct (cat_cell_run h (final r2)) as [H3 _].
  destruct (sh_cell_run h (final r3)) as (T4 & F4 & Hok & Hfail).
  fold r4 in T4, F4, Hok, Hfail.
  unfold notebook.
  rewrite (run_bind_returned h install_cell _ w tt H1).
  fold r1.
  rewrite (run_bind_returned h setup_cell _ (final r1) s Hs).
  fold r2.
  rewrite (run_bind_returned h cat_cell _ (final r2) tt H3).
  fold r3.
  split.
  - intros H4.
    rewrite (run_bind_returned h sh_cell _ (final r3) tt (Hok H4)).
    rewrite T4, F4.
    split.
    + intros v Hv.
      destruct (fit_cell_run h (final r5) v) as [H6 _].
      rewrite (run_bind_returned h (estimator_cell s) _ (final r4) v Hv).
      fold r5.
      rewrite (run_bind_returned h (fit_cell v) _ (final r5) tt H6).
      cbn [trace result final run].
      rewrite app_nil_r. repeat split.
    + intros e He.
      rewrite (run_bind_raised h (estimator_cell s) _ (final r4) e He).
      fold r5. cbn [trace result final]. repeat split.
  - intros st H4 Hne.
    rewrite (run_bind_raised h sh_cell _ (final r3) _ (Hfail st H4 Hne)).
    rewrite T4. cbn [trace result final]. repeat split.
Qed.

(** ** The whole notebook, against any environment *)

(** A run of the notebook that returns went through every cell, and its
    shell cell ended with status zero. *)
Lemma notebook_completed_inv {W : Type} (h : handler W) (w : W)
    (s : session_vars) (v : estimator_vars) :
  let r1 := run h install_cell w in
  let r2 := run h setup_cell (final r1) in
  let r3 := run h cat_cell (final r2) in
  let r4 := run h build_and_push (final r3) in
  let r5 := run h (estimator_cell s) (final r4) in
  result (run h notebook w) = Py.Returned (s, v) ->
  result r2 = Py.Returned s /\ result r4 = Py.Returned 0 /\ result r5 = Py.Returned v.
Proof.
  intros r1 r2 r3 r4 r5 H.
  destruct (setup_cell_run h (final r1)) as (s0 & Hs0 & _).
  destruct (notebook_stages h w s0 Hs0) as [Hok Hfail].
  destruct (build_and_push_run h (final r3)) as [[st H4] _].
  destruct (Z.eq_dec st 0) as [-> | Hne].
  - destruct (Hok H4) as [Hret Hraise].
    destruct (estimator_cell_run h (final (run h build_and_push (final r3))) s0)
      as [_ [(He & _) | (v0 & Hv0 & _)]].
    + apply Hraise in He as [_ He]. rewrite He in H. discriminate.
    + destruct (Hret v0 Hv0) as (_ & Hr & _). rewrite Hr in H.
      injection H as -> ->. repeat split; assumption.
  - destruct (Hfail st H4 Hne) as [_ Hr]. rewrite Hr in H. discriminate.
Qed.

(** What a run of the notebook that returns has resolved, bound, constructed
    and launched. *)
Lemma completed_run {W : Type} (h : handler W) (w : W)
    (s : session_vars) (v : estimator_vars) :
  let t := trace (run h notebook w) in
  result (run h notebook w) = Py.Returned (s, v) ->
  count resolves_account t = 2%nat /\
  count resolves_region t = 2%nat /\
  (exists ident, identities t = [ident] /\ ident !! "Account" = Some (account v)) /\
  region_reads t = [region v] /\
  image v = fullname (account v) (Py.str_of_optional (region v)) repository /\
  params v = <["save_dir" := "/opt/ml/model/"]> (<["data_name" := "ml-1m"]> ∅) /\
  model_artifacts_location s = "s3://" +:+ bucket s +:+ "/artifacts" /\
  constructions t
    = [(mxnet_kwargs "train.py" "../dgl_gcmc" (role s) (image v) (params v)
          [ <["Key" := "ML Task"]> (<["Value" := "DGL"]> ∅) ] (sess s),
        estimator v)] /\
  launches t = [(estimator v, [], ∅)] /\
  length (after_construction t) = 1%nat.
Proof.
  intros t H. subst t.
  destruct (notebook_completed_inv h w s v H) as (Hs & H4 & Hv).
  destruct (notebook_stages h w s Hs) as [Hok _].
  destruct (Hok H4) as [Hret _]. clear Hok.
  destruct (Hret v Hv) as (Ht & _). clear Hret.
  destruct (install_cell_run h w) as (_ & A1 & R1 & I1 & G1 & C1 & L1).
  set (r1 := run h install_cell w) in *.
  destruct (setup_cell_run h (final r1)) as (s' & Hs' & _ & M2 & A2 & R2 & I2 & G2 & C2 & L2).
  rewrite Hs in Hs'. injection Hs' as <-.
  set (r2 := run h setup_cell (final r1)) in *.
  destruct (cat_cell_run h (final r2)) as (_ & A3 & R3 & I3 & G3 & C3 & L3).
  set (r3 := run h cat_cell (final r2)) in *.
  destruct (build_and_push_run h (final r3)) as (_ & A4 & R4 & I4 & G4 & C4 & L4).
  set (r4 := run h build_and_push (final r3)) in *.
  destruct (estimator_cell_run h (final r4) s) as [A5 [(He & _) | (v' & Hv' & R5 & I5 & G5 & Im & _ & CE & CP & P5 & T5 & C5 & L5 & F5)]].
  { rewrite He in Hv. discriminate. }
  rewrite Hv in Hv'. injection Hv' as <-.
  set (r5 := run h (estimator_cell s) (final r4)) in *.
  destruct (fit_cell_run h (final r5) v) as (_ & A6 & R6 & I6 & G6 & C6 & L6 & N6).
  set (r6 := run h (fit_cell v) (final r5)) in *.
  rewrite CE, CP, T5 in C5.
  rewrite Ht.
  rewrite !count_app, !identities_app, !region_reads_app, !constructions_app,
    !launches_app.
  rewrite A1, A2, A3, A4, A5, A6, R1, R2, R3, R4, R5, R6, I1, I2, I3, I4, I6,
    G1, G2, G3, G4, G5, G6, C1, C2, C3, C4, C5, C6, L1, L2, L3, L4, L5, L6.
  rewrite !(after_construction_app _ _) by assumption.
  rewrite after_construction_app_found by (rewrite C5; discriminate).
  rewrite F5. cbn [List.app]. rewrite ?app_nil_r.
  repeat split; auto.
Qed.


(** The estimator is constructed with nine keywords, none of them a
    location for the output. *)
Lemma mxnet_kwargs_keywords (e p r i : string) (hp : gmap string string)
    (tg : list (gmap string string)) (o : obj) :
  let kw := mxnet_kwargs e p r i hp tg o in
  kw !! "entry_point" = Some (VStr e) /\
  kw !! "source_dir" = Some (VStr p) /\
  kw !! "role" = Some (VStr r) /\
  kw !! "train_instance_count" = Some (VInt 1) /\
  kw !! "train_instance_type" = Some (VStr "ml.p3.2xlarge") /\
  kw !! "image_name" = Some (VStr i) /\
  kw !! "hyperparameters" = Some (VDict hp) /\
  kw !! "tags" = Some (VList tg) /\
  kw !! "sagemaker_session" = Some (VObj o) /\
  kw !! "output_path" = None /\
  size kw = 9%nat.
Proof. repeat split. Qed.

(** The hyperparameters of a completed run are the two the cell assigns,
    in whichever order they are written. *)
Lemma hyperparameters_as_assigned {W : Type} (h : handler W) (w : W)
    (s : session_vars) (v : estimator_vars) :
  result (run h notebook w) = Py.Returned (s, v) ->
  params v = <["data_name" := "ml-1m"]> (<["save_dir" := "/opt/ml/model/"]> ∅)
  /\ exists kw, constructions (trace (run h notebook w)) = [(kw, estimator v)]
                /\ kw !! "hyperparameters" = Some (VDict (params v)).
Proof.
  intros H.
  destruct (completed_run h w s v H) as (_ & _ & _ & _ & _ & Hp & _ & Hc & _).
  split.
  - rewrite Hp. apply insert_insert_ne. discriminate.
  - eexists. split; [exact Hc | reflexivity].
Qed.

(** ** The claims about the run *)

(** The notebook on the model instance returns with these names bound. *)
Lemma fresh_run_returns :
  result (run Env.env notebook Env.fresh)
  = Py.Returned (Env.fresh_session, Env.fresh_estimator).
Proof. vm_compute. reflexivity. Qed.

(** C1, on the notebook as it is run on the model instance: cell 2 binds the
    location for the model artifacts, and the one estimator construction is
    given entry point, source directory, image name, instance type and
    count, hyperparameters and tags as the cells bound them, but no output
    location: it has nine keywords, none of which is the output path, and
    none of its values is the artifacts location. *)
Theorem estimator_construction_omits_output_location :
  let r := run Env.env notebook Env.fresh in
  let s := Env.fresh_session in
  let v := Env.fresh_estimator in
  result r = Py.Returned (s, v) /\
  model_artifacts_location s = "s3://sagemaker-us-east-1-123456789012/artifacts" /\
  exists kw,
    constructions (trace r) = [(kw, estimator v)] /\
    kw !! "entry_point" = Some (VStr (CODE_ENTRY v)) /\
    kw !! "source_dir" = Some (VStr (CODE_PATH v)) /\
    kw !! "image_name" = Some (VStr (image v)) /\
    kw !! "train_instance_type" = Some (VStr "ml.p3.2xlarge") /\
    kw !! "train_instance_count" = Some (VInt 1) /\
    kw !! "hyperparameters" = Some (VDict (params v)) /\
    kw !! "tags" = Some (VList (task_tags v)) /\
    size kw = 9%nat /\
    kw !! "output_path" = None /\
    map_Forall (fun _ x => x <> VStr (model_artifacts_location s)) kw.
Proof.
  cbv zeta.
  destruct (completed_run Env.env Env.fresh _ _ fresh_run_returns)
    as (_ & _ & _ & _ & _ & _ & _ & Hc & _).
  split; [exact fresh_run_returns |].
  split; [reflexivity |].
  eexists. split; [exact Hc |].
  repeat split.
  apply map_Forall_to_list. vm_compute.
  repeat constructor; intros E; discriminate E.
Qed.

(** C5: with an instance count of zero or less the constructor of the job
    configuration, as the spec describes it, returns InvalidConfigError and
    no job specification, whatever the other arguments are. *)
Theorem build_job_spec_rejects_nonpositive_instance_count :
  forall (recognized : string -> bool) (entry_point source_bundle : string)
         (image : JobConfig.ImageReference) (compute_type : string)
         (instance_count : Z)
         (hyperparameters : list (string * JobConfig.hyperparameter))
         (tags : list (string * string)) (output_location : string),
    instance_count <= 0 ->
    JobConfig.build_job_spec recognized entry_point source_bundle image
      compute_type instance_count hyperparameters tags output_location
    = inl JobConfig.InvalidConfigError.
Proof.
  intros recognized e sb im ct n hp tg ol Hn.
  unfold JobConfig.build_job_spec.
  destruct (Z.ltb_spec n 1) as [_ | Hge]; [reflexivity | lia].
Qed.

Lemma build_job_spec_rejects_nonpositive_instance_count_witness :
  0 <= 0 /\
  JobConfig.build_job_spec (fun _ => true) "train.py" "../dgl_gcmc"
    (JobConfig.Build_ImageReference "dkr.ecr.us-east-1.amazonaws.com"
       "sagemaker-dgl-gcmc" "latest")
    "gpu-large" 0
    [("data_name", JobConfig.Flat "ml-1m"); ("save_dir", JobConfig.Flat "/opt/ml/model/")]
    [("ML Task", "DGL")] "s3://bucket/artifacts"
  = inl JobConfig.InvalidConfigError.
Proof.
  split; [lia |].
  apply build_job_spec_rejects_nonpositive_instance_count. lia.
Defined.




(** C8, as stated, fails: when the command line is configured for one
    region and the boto session uses another, the reference the shell cell
    pushes and the image name the estimator is constructed with differ, so
    the construction did not take the reference of the push. *)
Lemma estimator_image_is_not_taken_from_the_push :
  commands push_command (trace (run Env.env notebook Env.two_regions))
  = [["docker"; "push";
      "123456789012.dkr.ecr.us-west-2.amazonaws.com/sagemaker-dgl-gcmc:latest"]]
  /\ (exists kw o,
        constructions (trace (run Env.env notebook Env.two_regions)) = [(kw, o)]
        /\ kw !! "image_name"
           = Some (VStr "123456789012.dkr.ecr.us-east-1.amazonaws.com/sagemaker-dgl-gcmc:latest"))
  /\ ~ construction_takes_pushed_reference
         (trace (run Env.env notebook Env.two_regions)).
Proof.
  assert (P : commands push_command (trace (run Env.env notebook Env.two_regions))
              = [["docker"; "push";
                  "123456789012.dkr.ecr.us-west-2.amazonaws.com/sagemaker-dgl-gcmc:latest"]])
    by (vm_compute; reflexivity).
  pose (kw := mxnet_kwargs "train.py" "../dgl_gcmc" "arn:aws:iam::123456789012:role/nb"
                "123456789012.dkr.ecr.us-east-1.amazonaws.com/sagemaker-dgl-gcmc:latest"
                (params Env.fresh_estimator) (task_tags Env.fresh_estimator) 0%nat).
  assert (C : constructions (trace (run Env.env notebook Env.two_regions))
              = [(kw, 1%nat)])
    by (vm_compute; reflexivity).
  split; [exact P |]. split.
  - exists kw, 1%nat. split; [exact C | reflexivity].
  - intros H. destruct (H kw 1%nat) as (ref & Hin & Hk).
    + rewrite C. left. reflexivity.
    + rewrite P in Hin. destruct Hin as [E | []].
      injection E as <-. vm_compute in Hk. discriminate Hk.
Qed.

(** C8, as amended: a run in which the script of the shell cell ends with
    status zero and no cell raises is the cells one after the other, each
    starting where the one before ended. The shell cell pushes the
    reference it built from its own two lookups. The estimator cell is
    handed the names of the session cell only: it looks account and region
    up itself, builds the image name from its answers and constructs the
    estimator with it. The launch is one call on the estimator that cell 5
    constructed. *)
Theorem stages_run_in_order :
  forall (W : Type) (h : handler W) (w : W) (s : session_vars) (v : estimator_vars),
    let r1 := run h install_cell w in
    let r2 := run h setup_cell (final r1) in
    let r3 := run h cat_cell (final r2) in
    let r4 := run h build_and_push (final r3) in
    let r5 := run h (estimator_cell s) (final r4) in
    let r6 := run h (fit_cell v) (final r5) in
    result r2 = Py.Returned s ->
    result r4 = Py.Returned 0 ->
    result r5 = Py.Returned v ->
    trace (run h notebook w)
      = (trace r1 ++ trace r2 ++ trace r3 ++ trace r4 ++ trace r5 ++ trace r6)%list /\
    result (run h notebook w) = Py.Returned (s, v) /\
    final (run h notebook w) = final r6 /\
    (exists a r,
       outputs sts_command (trace r4) = [a] /\
       outputs region_command (trace r4) = [r] /\
       commands push_command (trace r4)
         = [(["docker"; "push"]
             ++ Sh.words (fullname (Sh.strip_trailing_newlines a)
                            (Sh.strip_trailing_newlines r) "sagemaker-dgl-gcmc"))%list]) /\
    (exists ident, identities (trace r5) = [ident]
                   /\ ident !! "Account" = Some (account v)) /\
    region_reads (trace r5) = [region v] /\
    constructions (trace r5)
      = [(mxnet_kwargs "train.py" "../dgl_gcmc" (role s)
            (fullname (account v) (Py.str_of_optional (region v)) "sagemaker-dgl-gcmc")
            (params v) (task_tags v) (sess s),
          estimator v)] /\
    launches (trace r6) = [(estimator v, [], ∅)] /\
    length (trace r6) = 1%nat.
Proof.
  intros W h w s v r1 r2 r3 r4 r5 r6 Hs H4 Hv.
  destruct (notebook_stages h w s Hs) as [Hok _].
  destruct (Hok H4) as [Hret _].
  destruct (Hret v Hv) as (Ht & Hr & Hf).
  destruct (shell_cell_pushes_fullname h (final r3)) as (a & r & Ha & Hr4 & _ & Hp).
  destruct (estimator_cell_run h (final r4) s)
    as [_ [(He & _) | (v' & Hv' & _ & I5 & G5 & Im & _ & CE & CP & _ & _ & C5 & _)]].
  { fold r5 in He. rewrite He in Hv. discriminate Hv. }
  fold r5 in Hv'. rewrite Hv in Hv'. injection Hv' as <-.
  destruct (fit_cell_run h (final r5) v) as (_ & _ & _ & _ & _ & _ & L6 & N6).
  split; [exact Ht |]. split; [exact Hr |]. split; [exact Hf |].
  split; [exists a, r; repeat split; assumption |].
  split; [exact I5 |]. split; [exact G5 |].
  split; [| split; assumption].
  fold r5 in C5. rewrite C5, CE, CP, Im. reflexivity.
Qed.

Lemma stages_run_in_order_witness :
  let r1 := run Env.env install_cell Env.fresh in
  let r2 := run Env.env setup_cell (final r1) in
  let r3 := run Env.env cat_cell (final r2) in
  let r4 := run Env.env build_and_push (final r3) in
  let r5 := run Env.env (estimator_cell Env.fresh_session) (final r4) in
  let r6 := run Env.env (fit_cell Env.fresh_estimator) (final r5) in
  result r2 = Py.Returned Env.fresh_session /\
  result r4 = Py.Returned 0 /\
  result r5 = Py.Returned Env.fresh_estimator /\
  trace (run Env.env notebook Env.fresh)
    = (trace r1 ++ trace r2 ++ trace r3 ++ trace r4 ++ trace r5 ++ trace r6)%list /\
  launches (trace r6) = [(estimator Env.fresh_estimator, [], ∅)].
Proof.
  cbv zeta.
  assert (H2 : result (run Env.env setup_cell
                         (final (run Env.env install_cell Env.fresh)))
               = Py.Returned Env.fresh_session)
    by (vm_compute; reflexivity).
  assert (H4 : result (run Env.env build_and_push
                         (final (run Env.env cat_cell
                            (final (run Env.env setup_cell
                               (final (run Env.env install_cell Env.fresh)))))))
               = Py.Returned 0)
    by (vm_compute; reflexivity).
  assert (H5 : result (run Env.env (estimator_cell Env.fresh_session)
                         (final (run Env.env build_and_push
                            (final (run Env.env cat_cell
                               (final (run Env.env setup_cell
                                  (final (run Env.env install_cell Env.fresh)))))))))
               = Py.Returned Env.fresh_estimator)
    by (vm_compute; reflexivity).
  split; [exact H2 |]. split; [exact H4 |]. split; [exact H5 |].
  destruct (stages_run_in_order Env.world Env.env Env.fresh Env.fresh_session
              Env.fresh_estimator H2 H4 H5)
    as (Ht & _ & _ & _ & _ & _ & _ & L6 & _).
  split; assumption.
Defined.



(** C10: in a run of the notebook that completes, the launch is one call of
    fit on the estimator that was constructed, with no positional and no
    keyword argument, so with no input channel; it is the only call made
    after the construction. Entry point, source directory, instance count
    and type, image, hyperparameters and tags are the keyword arguments of
    that one construction. *)
Theorem launch_passes_no_arguments :
  forall (W : Type) (h : handler W) (w : W) (s : session_vars) (v : estimator_vars),
    let t := trace (run h notebook w) in
    result (run h notebook w) = Py.Returned (s, v) ->
    launches t = [(estimator v, [], ∅)] /\
    length (after_construction t) = 1%nat /\
    exists kw,
      constructions t = [(kw, estimator v)] /\
      kw !! "entry_point" = Some (VStr "train.py") /\
      kw !! "source_dir" = Some (VStr "../dgl_gcmc") /\
      kw !! "train_instance_count" = Some (VInt 1) /\
      kw !! "train_instance_type" = Some (VStr "ml.p3.2xlarge") /\
      kw !! "image_name" = Some (VStr (image v)) /\
      kw !! "hyperparameters"
        = Some (VDict (<["data_name" := "ml-1m"]> (<["save_dir" := "/opt/ml/model/"]> ∅))) /\
      kw !! "tags" = Some (VList [ <["Key" := "ML Task"]> (<["Value" := "DGL"]> ∅) ]).
Proof.
  intros W h w s v t H.
  destruct (completed_run h w s v H) as (_ & _ & _ & _ & _ & Hp & _ & Hc & Hl & Ha).
  destruct (hyperparameters_as_assigned h w s v H) as [Hp' _].
  split; [exact Hl |]. split; [exact Ha |].
  eexists. split; [exact Hc |].
  rewrite <- Hp'. repeat split.
Qed.

Lemma launch_passes_no_arguments_witness :
  result (run Env.env notebook Env.fresh)
  = Py.Returned (Env.fresh_session, Env.fresh_estimator) /\
  launches (trace (run Env.env notebook Env.fresh)) = [(1%nat, [], ∅)] /\
  length (after_construction (trace (run Env.env notebook Env.fresh))) = 1%nat.
Proof.
  assert (H : result (run Env.env notebook Env.fresh)
              = Py.Returned (Env.fresh_session, Env.fresh_estimator))
    by (vm_compute; reflexivity).
  split; [exact H |].
  destruct (launch_passes_no_arguments Env.world Env.env Env.fresh
              Env.fresh_session Env.fresh_estimator H) as (Hl & Ha & _).
  split; assumption.
Defined.

(** * Further properties of the cells *)

(** Cell 5 returns exactly when the answer of sts carries an account. *)
Lemma estimator_cell_outcome {W : Type} (h : handler W) (w : W) (s : session_vars) :
  let r := run h (estimator_cell s) w in
  let t := trace r in
  exists ident,
    identities t = [ident] /\
    match ident !! "Account" with
    | Some a => exists v, result r = Py.Returned v /\ account v = a
    | None => result r = Py.Raised "KeyError" /\ region_reads t = [] /\
              constructions t = [] /\ launches t = []
    end.
Proof.
  intros r t. subst r t.
  run_cells; eexists; (split; [reflexivity |]);
    match goal with H : _ !! "Account" = _ |- _ => rewrite H end.
  - eexists. split; reflexivity.
  - repeat split.
Qed.

Lemma statuses_app (pre : list string) (t1 t2 : list entry) :
  statuses pre (t1 ++ t2) = (statuses pre t1 ++ statuses pre t2)%list.
Proof.
  induction t1 as [| [X e x] t1 IH]; [reflexivity |].
  destruct e; simpl; try destruct (starts_with pre argv); simpl;
    rewrite ?IH; reflexivity.
Qed.

Lemma statuses_push_other_cells {W : Type} (h : handler W) (w : W)
    (s : session_vars) (v : estimator_vars) :
  statuses push_command (trace (run h install_cell w)) = [] /\
  statuses push_command (trace (run h setup_cell w)) = [] /\
  statuses push_command (trace (run h cat_cell w)) = [] /\
  statuses push_command (trace (run h (estimator_cell s) w)) = [] /\
  statuses push_command (trace (run h (fit_cell v) w)) = [].
Proof.
  repeat split. run_cells; reflexivity.
Qed.

(** How a run of the notebook ends, by the status of the push and the
    answer of sts in cell 5. *)
Lemma notebook_outcome :
  forall (W : Type) (h : handler W) (w : W),
    let r := run h notebook w in
    let t := trace r in
    exists st,
      statuses push_command t = [st] /\
      ((st = 0 /\
        exists ident,
          identities t = [ident] /\
          match ident !! "Account" with
          | Some a => exists s v, result r = Py.Returned (s, v) /\ account v = a
          | None => result r = Py.Raised "KeyError" /\ region_reads t = [] /\
                    constructions t = [] /\ launches t = []
          end)
       \/
       (st <> 0 /\ result r = Py.Raised "CalledProcessError" /\
        identities t = [] /\ region_reads t = [] /\
        constructions t = [] /\ launches t = [])).
Proof.
  intros W h w r t. subst r t.
  pose (r1 := run h install_cell w).
  pose (r2 := run h setup_cell (final r1)).
  pose (r3 := run h cat_cell (final r2)).
  pose (r4 := run h build_and_push (final r3)).
  destruct (install_cell_run h w) as (_ & _ & _ & I1 & G1 & C1 & L1).
  destruct (setup_cell_run h (final r1)) as (s & Hs & _ & _ & _ & _ & I2 & G2 & C2 & L2).
  destruct (notebook_stages h w s Hs) as [Hok Hfail].
  destruct (cat_cell_run h (final r2)) as (_ & _ & _ & I3 & G3 & C3 & L3).
  destruct (build_and_push_run h (final r3)) as (_ & _ & _ & I4 & G4 & C4 & L4).
  destruct (shell_cell_counts h (final r3))
    as (_ & _ & _ & _ & _ & _ & _ & _ & st & P4 & H4).
  destruct (estimator_cell_outcome h (final r4) s) as (ident & I5 & Hcase).
  pose (r5 := run h (estimator_cell s) (final r4)).
  assert (S1 := proj1 (statuses_push_other_cells h w s Env.fresh_estimator)).
  assert (S2 := proj1 (proj2 (statuses_push_other_cells h (final r1) s Env.fresh_estimator))).
  assert (S3 := proj1 (proj2 (proj2
                  (statuses_push_other_cells h (final r2) s Env.fresh_estimator)))).
  assert (S5 := proj1 (proj2 (proj2 (proj2
                  (statuses_push_other_cells h (final r4) s Env.fresh_estimator))))).
  subst r5 r4 r3 r2 r1.
  exists st.
  destruct (Z.eq_dec st 0) as [-> | Hne].
  - destruct (Hok H4) as [Hret Hraise].
    destruct (ident !! "Account") as [a |] eqn:E.
    + destruct Hcase as (v & Hv & Ha).
      destruct (Hret v Hv) as (Ht & Hr & _).
      destruct (fit_cell_run h
                  (final (run h (estimator_cell s)
                     (final (run h build_and_push
                        (final (run h cat_cell
                           (final (run h setup_cell
                              (final (run h install_cell w)))))))))) v)
        as (_ & _ & _ & I6 & _).
      assert (S6 := proj2 (proj2 (proj2 (proj2
                  (statuses_push_other_cells h
                     (final (run h (estimator_cell s)
                        (final (run h build_and_push
                           (final (run h cat_cell
                              (final (run h setup_cell
                                 (final (run h install_cell w)))))))))) s v))))).
      rewrite Ht, !identities_app, !statuses_app,
        I1, I2, I3, I4, I5, I6, S1, S2, S3, P4, S5, S6.
      split; [reflexivity |]. left. split; [reflexivity |].
      exists ident. split; [reflexivity |]. rewrite E.
      exists s, v. split; assumption.
    + destruct Hcase as (He & G5 & C5 & L5).
      destruct (Hraise "KeyError" He) as (Ht & Hr).
      rewrite Ht, !identities_app, !region_reads_app, !constructions_app,
        !launches_app, !statuses_app.
      rewrite I1, I2, I3, I4, I5, G1, G2, G3, G4, G5, C1, C2, C3, C4, C5,
        L1, L2, L3, L4, L5, S1, S2, S3, P4, S5.
      split; [reflexivity |]. left. split; [reflexivity |].
      exists ident. split; [reflexivity |]. rewrite E.
      repeat split; assumption.
  - destruct (Hfail st H4 Hne) as (Ht & Hr).
    rewrite Ht, !identities_app, !region_reads_app, !constructions_app,
      !launches_app, !statuses_app.
    rewrite I1, I2, I3, I4, G1, G2, G3, G4, C1, C2, C3, C4,
      L1, L2, L3, L4, S1, S2, S3, P4.
    split; [reflexivity |]. right. repeat split; assumption.
Qed.

(** X1: take a run of the notebook in which every command and every call
    into boto and the SDK answers. It pushes once and ends in one of three
    ways. When the push ends with a status other than zero, the cell magic
    raises CalledProcessError: cell 5 and cell 6 do not run, so no identity
    is asked of sts, no estimator is constructed and nothing is launched.
    When the status is zero and the answer of sts in cell 5 carries no
    account, the subscript raises KeyError: the region is not read, no
    estimator is constructed and nothing is launched. Otherwise the run
    returns with that account bound. The two format calls never raise. *)
Theorem notebook_ends_by_push_status_and_account :
  forall (W : Type) (h : handler W) (w : W),
    let r := run h notebook w in
    let t := trace r in
    exists st,
      statuses push_command t = [st] /\
      ((st = 0 /\
        exists ident,
          identities t = [ident] /\
          match ident !! "Account" with
          | Some a => exists s v, result r = Py.Returned (s, v) /\ account v = a
          | None => result r = Py.Raised "KeyError" /\ region_reads t = [] /\
                    constructions t = [] /\ launches t = []
          end)
       \/
       (st <> 0 /\ result r = Py.Raised "CalledProcessError" /\
        identities t = [] /\ region_reads t = [] /\
        constructions t = [] /\ launches t = [])).
Proof.
  intros W h w. apply notebook_outcome.
Qed.

(** The run on the instance whose network fails the push stops at the shell
    cell. *)
Example flaky_run_stops_at_the_shell_cell :
  result (run Env.env notebook Env.flaky) = Py.Raised "CalledProcessError"
  /\ constructions (trace (run Env.env notebook Env.flaky)) = []
  /\ launches (trace (run Env.env notebook Env.flaky)) = [].
Proof. repeat split; vm_compute; reflexivity. Qed.

Ltac fold_words :=
  repeat match goal with
  | |- context [Sh.fields "" ?x] => change (Sh.fields "" x) with (Sh.words x)
  end.

(** X2: take a run of the shell cell in which the account and the region
    that the two lookups print are non-empty and hold neither a blank nor a
    pattern character, and each of the two login lookups prints a docker
    command line without a pattern character. The cell makes these calls,
    in this order, and no others: the account lookup, the echo, the region
    lookup, the login lookup for the registry of the base image, the docker
    line it printed, docker build, the login lookup for the own registry,
    the docker line it printed, describe-repositories, create-repository
    when describing failed, docker tag and docker push, the last two with
    the whole reference as one argument. *)
Theorem shell_cell_calls_for_a_plain_identity :
  forall (W : Type) (h : handler W) (w : W) (a r o1 o2 : string)
         (l1 l2 : list string),
    let t := trace (run h build_and_push w) in
    let acct := Sh.strip_trailing_newlines a in
    let regn := Sh.strip_trailing_newlines r in
    outputs sts_command t = [a] ->
    outputs region_command t = [r] ->
    outputs login_command t = [o1; o2] ->
    Sh.no_ifs acct = true -> Sh.no_glob acct = true -> acct <> "" ->
    Sh.no_ifs regn = true -> Sh.no_glob regn = true -> regn <> "" ->
    Sh.words (Sh.strip_trailing_newlines o1) = "docker" :: l1 ->
    Sh.no_glob o1 = true ->
    Sh.words (Sh.strip_trailing_newlines o2) = "docker" :: l2 ->
    Sh.no_glob o2 = true ->
    exists st,
      statuses describe_command t = [st] /\
      calls t
      = ([ Called (Exec ["aws"; "sts"; "get-caller-identity"; "--query";
                         "Account"; "--output"; "text"]);
           Called (Exec ["echo"; acct]);
           Called (Exec ["aws"; "configure"; "get"; "region"]);
           Called (Exec ["aws"; "ecr"; "get-login"; "--no-include-email";
                         "--region"; regn; "--registry-ids"; "763104351884"]);
           Called (ExecOutput ("docker" :: l1));
           Called (Exec ["docker"; "build"; "-t"; "sagemaker-dgl-gcmc"; "-f";
                         "GCMC.Dockerfile"; "."]);
           Called (Exec ["aws"; "ecr"; "get-login"; "--region"; regn;
                         "--no-include-email"]);
           Called (ExecOutput ("docker" :: l2));
           Called (Exec ["aws"; "ecr"; "describe-repositories";
                         "--repository-names"; "sagemaker-dgl-gcmc"]) ]
         ++ (if st =? 0 then []
             else [ Called (Exec ["aws"; "ecr"; "create-repository";
                                  "--repository-name"; "sagemaker-dgl-gcmc"]) ])
         ++ [ Called (Exec ["docker"; "tag"; "sagemaker-dgl-gcmc";
                            fullname acct regn "sagemaker-dgl-gcmc"]);
              Called (Exec ["docker"; "push";
                            fullname acct regn "sagemaker-dgl-gcmc"]) ])%list.
Proof.
  intros W h w a r o1 o2 l1 l2 t acct regn. subst t acct regn.
  unfold build_and_push, exec_output_of, call. cbn.
  repeat match goal with
  | |- context [match Sh.words ?s with _ => _ end] =>
      destruct (Sh.words s) eqn:?; cbn
  | |- context [if negb (?x =? 0) then _ else _] => destruct (x =? 0) eqn:?; cbn
  end.
  all: intros Ha Hr Ho Na _ Ea Nr _ Er W1 _ W2 _.
  all: injection Ha as <-; injection Hr as <-; injection Ho as <- <-.
  all: repeat match goal with
         | H : Sh.words ?x = _, H' : Sh.words ?x = _ |- _ =>
             rewrite H in H';
             first [discriminate H' | (injection H' as ? ?; subst; clear H)]
         end.
  all: eexists; split; [reflexivity |].
  all: match goal with H : (_ =? 0) = _ |- _ => rewrite H end.
  all: fold_words.
  all: rewrite (fullname_one_word _ _ Na Nr),
         (words_no_ifs _ Nr Er), (words_no_ifs _ Na Ea).
  all: reflexivity.
Qed.

Lemma shell_cell_calls_for_a_plain_identity_witness :
  let t := trace (run Env.env build_and_push Env.fresh) in
  let line := "docker login -u AWS -p token https://registry" in
  outputs sts_command t = ["123456789012" +:+ Env.newline] /\
  outputs region_command t = ["us-east-1" +:+ Env.newline] /\
  outputs login_command t = [line; line] /\
  Sh.no_ifs (Sh.strip_trailing_newlines ("123456789012" +:+ Env.newline)) = true /\
  Sh.no_glob (Sh.strip_trailing_newlines ("123456789012" +:+ Env.newline)) = true /\
  Sh.strip_trailing_newlines ("123456789012" +:+ Env.newline) <> "" /\
  Sh.no_ifs (Sh.strip_trailing_newlines ("us-east-1" +:+ Env.newline)) = true /\
  Sh.no_glob (Sh.strip_trailing_newlines ("us-east-1" +:+ Env.newline)) = true /\
  Sh.strip_trailing_newlines ("us-east-1" +:+ Env.newline) <> "" /\
  Sh.words (Sh.strip_trailing_newlines line)
  = "docker" :: ["login"; "-u"; "AWS"; "-p"; "token"; "https://registry"] /\
  Sh.no_glob line = true /\
  length (calls t) = 12%nat.
Proof.
  cbv zeta.
  assert (Ha : outputs sts_command (trace (run Env.env build_and_push Env.fresh))
               = ["123456789012" +:+ Env.newline]) by (vm_compute; reflexivity).
  assert (Hr : outputs region_command (trace (run Env.env build_and_push Env.fresh))
               = ["us-east-1" +:+ Env.newline]) by (vm_compute; reflexivity).
  assert (Ho : outputs login_command (trace (run Env.env build_and_push Env.fresh))
               = ["docker login -u AWS -p token https://registry";
                  "docker login -u AWS -p token https://registry"])
    by (vm_compute; reflexivity).
  assert (Na : Sh.no_ifs (Sh.strip_trailing_newlines ("123456789012" +:+ Env.newline))
               = true) by (vm_compute; reflexivity).
  assert (Ga : Sh.no_glob (Sh.strip_trailing_newlines ("123456789012" +:+ Env.newline))
               = true) by (vm_compute; reflexivity).
  assert (Ea : Sh.strip_trailing_newlines ("123456789012" +:+ Env.newline) <> "")
    by (vm_compute; discriminate).
  assert (Nr : Sh.no_ifs (Sh.strip_trailing_newlines ("us-east-1" +:+ Env.newline))
               = true) by (vm_compute; reflexivity).
  assert (Gr : Sh.no_glob (Sh.strip_trailing_newlines ("us-east-1" +:+ Env.newline))
               = true) by (vm_compute; reflexivity).
  assert (Er : Sh.strip_trailing_newlines ("us-east-1" +:+ Env.newline) <> "")
    by (vm_compute; discriminate).
  assert (W1 : Sh.words (Sh.strip_trailing_newlines
                           "docker login -u AWS -p token https://registry")
               = "docker" :: ["login"; "-u"; "AWS"; "-p"; "token"; "https://registry"])
    by (vm_compute; reflexivity).
  assert (G1 : Sh.no_glob "docker login -u AWS -p token https://registry" = true)
    by (vm_compute; reflexivity).
  repeat (split; [assumption |]).
  destruct (shell_cell_calls_for_a_plain_identity Env.world Env.env Env.fresh
              _ _ _ _ _ _ Ha Hr Ho Na Ga Ea Nr Gr Er W1 G1 W1 G1)
    as (st & Hst & Hc).
  assert (Hd : statuses describe_command (trace (run Env.env build_and_push Env.fresh))
               = [255]) by (vm_compute; reflexivity).
  rewrite Hd in Hst. injection Hst as <-.
  rewrite Hc. reflexivity.
Defined.

(** X3: when the region lookup of the shell cell prints nothing (no region is
    configured for the command line), the unquoted expansion leaves no word:
    both login lookups are run with the option --region directly followed by
    the next option, and the cell still pushes once, a reference whose host
    has an empty region between two dots. *)
Theorem shell_cell_without_a_configured_region :
  forall (W : Type) (h : handler W) (w : W) (a r : string),
    let t := trace (run h build_and_push w) in
    outputs sts_command t = [a] ->
    outputs region_command t = [r] ->
    Sh.strip_trailing_newlines r = "" ->
    commands login_command t
    = [ ["aws"; "ecr"; "get-login"; "--no-include-email"; "--region";
         "--registry-ids"; "763104351884"];
        ["aws"; "ecr"; "get-login"; "--region"; "--no-include-email"] ] /\
    commands push_command t
    = [ ("docker" :: "push"
         :: Sh.words (Sh.strip_trailing_newlines a
                      +:+ ".dkr.ecr..amazonaws.com/sagemaker-dgl-gcmc:latest")) ].
Proof.
  intros W h w a r t. subst t.
  run_cells.
  all: intros Ha Hr Er; injection Ha as <-; injection Hr as <-.
  all: rewrite !Er; split; reflexivity.
Qed.

Lemma shell_cell_without_a_configured_region_witness :
  let t := trace (run Env.env build_and_push no_cli_region) in
  outputs sts_command t = ["123456789012" +:+ Env.newline] /\
  outputs region_command t = [Env.newline] /\
  Sh.strip_trailing_newlines Env.newline = "" /\
  commands push_command t
  = [ ["docker"; "push";
       "123456789012.dkr.ecr..amazonaws.com/sagemaker-dgl-gcmc:latest"] ].
Proof.
  cbv zeta.
  assert (Ha : outputs sts_command (trace (run Env.env build_and_push no_cli_region))
               = ["123456789012" +:+ Env.newline]) by (vm_compute; reflexivity).
  assert (Hr : outputs region_command (trace (run Env.env build_and_push no_cli_region))
               = [Env.newline]) by (vm_compute; reflexivity).
  assert (Er : Sh.strip_trailing_newlines Env.newline = "") by reflexivity.
  repeat (split; [assumption |]).
  destruct (shell_cell_without_a_configured_region Env.world Env.env no_cli_region
              _ _ Ha Hr Er) as (_ & Hp).
  rewrite Hp. reflexivity.
Defined.

(** X4: take a run of the shell cell in which each of the two login lookups
    prints nothing or a docker command line, without a pattern character.
    The command lines the cell runs from the output of a command are what
    those two lookups printed: each output, stripped of its trailing
    newlines and split into fields, is run as one command when it has a
    field, and nothing is run for an output without one. *)
Theorem login_output_is_run_as_a_command :
  forall (W : Type) (h : handler W) (w : W) (o1 o2 : string),
    let t := trace (run h build_and_push w) in
    outputs login_command t = [o1; o2] ->
    docker_line_or_nothing o1 = true ->
    docker_line_or_nothing o2 = true ->
    executed t
    = List.filter nonempty
        (map (fun o => Sh.words (Sh.strip_trailing_newlines o)) [o1; o2]).
Proof.
  intros W h w o1 o2 t. subst t.
  unfold build_and_push, exec_output_of, call. cbn.
  repeat match goal with
  | |- context [match Sh.words ?s with _ => _ end] =>
      destruct (Sh.words s) eqn:?; cbn
  | |- context [if negb (?x =? 0) then _ else _] => destruct (x =? 0) eqn:?; cbn
  end.
  all: intros Ho _ _; injection Ho as <- <-.
  all: fold_words.
  all: repeat match goal with H : Sh.words _ = _ |- _ => rewrite H; clear H end.
  all: reflexivity.
Qed.

Lemma login_output_is_run_as_a_command_witness :
  let t := trace (run Env.env build_and_push Env.fresh) in
  let line := "docker login -u AWS -p token https://registry" in
  outputs login_command t = [line; line] /\
  docker_line_or_nothing line = true /\
  executed t
  = [ ["docker"; "login"; "-u"; "AWS"; "-p"; "token"; "https://registry"];
      ["docker"; "login"; "-u"; "AWS"; "-p"; "token"; "https://registry"] ].
Proof.
  cbv zeta.
  assert (Ho : outputs login_command (trace (run Env.env build_and_push Env.fresh))
               = ["docker login -u AWS -p token https://registry";
                  "docker login -u AWS -p token https://registry"])
    by (vm_compute; reflexivity).
  assert (D : docker_line_or_nothing "docker login -u AWS -p token https://registry"
              = true) by (vm_compute; reflexivity).
  repeat (split; [assumption |]).
  rewrite (login_output_is_run_as_a_command Env.world Env.env Env.fresh _ _ Ho D D).
  reflexivity.
Defined.






(** X7: in a run of the notebook that completes, the hyperparameters the
    estimator is constructed with are the dictionary bound to params, which
    holds exactly two entries, data_name with ml-1m and save_dir with
    /opt/ml/model/; it is the dictionary written with the two entries in
    either order. *)
Theorem hyperparameters_are_the_two_assigned :
  forall (W : Type) (h : handler W) (w : W) (s : session_vars) (v : estimator_vars),
    result (run h notebook w) = Py.Returned (s, v) ->
    (exists kw, constructions (trace (run h notebook w)) = [(kw, estimator v)]
                /\ kw !! "hyperparameters" = Some (VDict (params v))) /\
    params v !! "data_name" = Some "ml-1m" /\
    params v !! "save_dir" = Some "/opt/ml/model/" /\
    size (params v) = 2%nat /\
    params v = <["data_name" := "ml-1m"]> (<["save_dir" := "/opt/ml/model/"]> ∅).
Proof.
  intros W h w s v H.
  destruct (completed_run h w s v H) as (_ & _ & _ & _ & _ & Hp & _ & Hc & _).
  split; [eexists; split; [exact Hc | reflexivity] |].
  rewrite Hp.
  split; [reflexivity |]. split; [reflexivity |]. split; [reflexivity |].
  apply insert_insert_ne. discriminate.
Qed.

Lemma hyperparameters_are_the_two_assigned_witness :
  result (run Env.env notebook Env.fresh)
  = Py.Returned (Env.fresh_session, Env.fresh_estimator) /\
  params Env.fresh_estimator !! "data_name" = Some "ml-1m" /\
  size (params Env.fresh_estimator) = 2%nat.
Proof.
  assert (H : result (run Env.env notebook Env.fresh)
              = Py.Returned (Env.fresh_session, Env.fresh_estimator))
    by (vm_compute; reflexivity).
  split; [exact H |].
  destruct (hyperparameters_are_the_two_assigned Env.world Env.env Env.fresh
              Env.fresh_session Env.fresh_estimator H) as (_ & A & _ & B & _).
  split; assumption.
Defined.

(** X6: the default bucket of the session reaches no call. Whatever bucket
    the environment answers with, the run makes the same calls with the same
    arguments and ends in the same state; only the names bucket and
    model_artifacts_location that cell 2 binds differ, and the estimator
    cell binds the same names either way. *)
Theorem default_bucket_reaches_no_call :
  forall (W : Type) (h : handler W) (w : W) (b : string),
    let r' := run (with_bucket b h) notebook w in
    let r := run h notebook w in
    calls (trace r') = calls (trace r) /\
    final r' = final r /\
    match result r', result r with
    | Py.Returned (s', v'), Py.Returned (s, v) =>
        v' = v /\ sess s' = sess s /\ role s' = role s /\
        bucket s' = b /\
        model_artifacts_location s' = "s3://" +:+ b +:+ "/artifacts"
    | Py.Raised e', Py.Raised e => e' = e
    | _, _ => False
    end.
Proof.
  intros W h w b r' r. subst r' r.
  run_notebook.
  all: repeat split; reflexivity.
Qed.

(** X8: no run of the notebook constructs more than one estimator, and an
    estimator is always constructed with nine keywords: the entry point
    train.py, the source directory, one instance of type ml.p3.2xlarge and
    five more, never a keyword for an output path or a code location. *)
Theorem every_construction_has_the_nine_keywords :
  forall (W : Type) (h : handler W) (w : W),
    let t := trace (run h notebook w) in
    (length (constructions t) <= 1)%nat /\
    Forall (fun c : gmap string pyval * obj =>
              size (fst c) = 9%nat /\
              fst c !! "output_path" = None /\
              fst c !! "code_location" = None /\
              fst c !! "entry_point" = Some (VStr "train.py") /\
              fst c !! "source_dir" = Some (VStr "../dgl_gcmc") /\
              fst c !! "train_instance_count" = Some (VInt 1) /\
              fst c !! "train_instance_type" = Some (VStr "ml.p3.2xlarge"))
           (constructions t).
Proof.
  intros W h w t. subst t.
  destruct (notebook_outcome W h w)
    as (st & _ & [(_ & ident & _ & Hcase) | (_ & _ & _ & _ & Hc & _)]).
  - destruct (ident !! "Account") as [a |].
    + destruct Hcase as (s & v & H & _).
      destruct (completed_run h w s v H) as (_ & _ & _ & _ & _ & _ & _ & Hc & _).
      rewrite Hc. split; [simpl; lia |].
      constructor; [| constructor].
      repeat split.
    + destruct Hcase as (_ & _ & Hc & _).
      rewrite Hc. split; [simpl; lia | constructor].
  - rewrite Hc. split; [simpl; lia | constructor].
Qed.
